(** * FlaskProject: the in-memory item store of [app.py]

    A shallow embedding of the request handlers of [class Item(Resource)]
    (get / post / put / delete over the module-level list [items]) and the
    properties of the store that follow from them.

    Conventions of the embedding.
    - The module-level list [items] is threaded explicitly: a handler takes
      the list before the request and returns its outcome together with the
      list after the request.
    - A handler either returns [(body, status)] or lets a Python exception
      escape; the only exception the handlers can raise by themselves is the
      [ValueError] of [int(item_id)].
    - [item_schema.load] belongs to the marshmallow library, not to the
      repository: it is a parameter of the handlers.  What is taken from
      the source is the declaration of [ItemSchema]: exactly two fields,
      [name] and [price], both required, so that loaded data always carries
      both and nothing else. *)

From Stdlib Require Import ZArith List String Ascii Bool Lia PrimFloat.
From Stdlib Require Import DecimalString DecimalPos Sorted.
Import ListNotations.
Local Open Scope string_scope.
Local Open Scope Z_scope.

(** ** Python's [int] on text *)

Module PyInt.

(** Tokens are strings of code points below 256.  [int] skips, at both
    ends, the ASCII white space of its parser (tab, line feed, vertical
    tab, form feed, carriage return, blank) and the Unicode spaces, which it
    first turns into blanks: below 256 these are U+0085 and U+00A0.  The
    interpreter's configurable limit on the number of digits is left
    out. *)
Definition is_space (c : ascii) : bool :=
  let n := Z.of_nat (nat_of_ascii c) in
  ((9 <=? n) && (n <=? 13)) || (n =? 32) || (n =? 133) || (n =? 160).

Definition digit_val (c : ascii) : option Z :=
  let n := Z.of_nat (nat_of_ascii c) in
  if (48 <=? n) && (n <=? 57) then Some (n - 48) else None.

Definition is_underscore (c : ascii) : bool :=
  Z.of_nat (nat_of_ascii c) =? 95.

Fixpoint lstrip (cs : list ascii) : list ascii :=
  match cs with
  | c :: r => if is_space c then lstrip r else cs
  | [] => []
  end.

Definition strip (cs : list ascii) : list ascii :=
  rev (lstrip (rev (lstrip cs))).

(** Decimal digits, a single underscore allowed between two digits.
    [after_digit] tells whether the previous character was a digit. *)
Fixpoint digits (acc : Z) (after_digit : bool) (cs : list ascii)
  : option Z :=
  match cs with
  | [] => if after_digit then Some acc else None
  | c :: r =>
      if is_underscore c then
        if after_digit then digits acc false r else None
      else
        match digit_val c with
        | Some d => digits (10 * acc + d) true r
        | None => None
        end
  end.

Definition signed (cs : list ascii) : option Z :=
  match cs with
  | "+"%char :: r => digits 0 false r
  | "-"%char :: r => option_map Z.opp (digits 0 false r)
  | _ => digits 0 false cs
  end.

(** [int(s)] in base ten: [None] stands for [ValueError]. *)
Definition int (s : string) : option Z :=
  signed (strip (list_ascii_of_string s)).

(** [str(n)] of an [int]: its decimal numeral, with a minus sign in front
    when it is negative.  This is how a client writes an id it was given
    into the path of a request. *)
Definition str (n : Z) : string :=
  NilZero.string_of_int (Z.to_int n).

End PyInt.

(** ** Data model *)

(** A JSON number as Python holds it: the seed records carry [int] prices,
    loaded records carry the [float] produced by [fields.Float]. *)
Inductive number : Type :=
| Int (z : Z)
| Float (f : float).

(** An element of [items]: a dict with keys [id], [name] and [price]. *)
Record item : Type := mkItem {
  item_id : Z;
  item_name : string;
  item_price : number
}.

(** What [ItemSchema().load] returns on success: a dict with the two
    declared fields. *)
Record ItemSchema : Type := mkData {
  name : string;
  price : number
}.

(** [items], as initialised at import time. *)
Definition items : list item :=
  [ mkItem 1 "Laptop" (Int 1500);
    mkItem 2 "Phone" (Int 800);
    mkItem 3 "Tablet" (Int 500) ].

Inductive exn : Type :=
| ValueError.

(** JSON bodies the handlers build. *)
Inductive body (messages : Type) : Type :=
| Message (message : string)
| OneItem (it : item)
| AllItems (l : list item)
| MessageItem (message : string) (it : item)
| MessageErrors (message : string) (errors : messages).

Arguments Message {messages} message.
Arguments OneItem {messages} it.
Arguments AllItems {messages} l.
Arguments MessageItem {messages} message it.
Arguments MessageErrors {messages} message errors.

Inductive outcome (messages : Type) : Type :=
| Return (b : body messages) (status : Z)
| Raise (e : exn).

Arguments Return {messages} b status.
Arguments Raise {messages} e.

(** [max(item["id"] for item in items)] on a non-empty list. *)
Definition max_id (first : item) (rest : list item) : Z :=
  fold_left (fun m it => Z.max m (item_id it)) rest (item_id first).

(** [next((item for item in items if item["id"] == int(item_id)), None)].
    The generator evaluates [int(item_id)] once per element it inspects, so
    nothing is parsed when the list is empty. *)
Fixpoint lookup (l : list item) (token : string) : exn + option item :=
  match l with
  | [] => inr None
  | it :: rest =>
      match PyInt.int token with
      | None => inl ValueError
      | Some n =>
          if item_id it =? n then inr (Some it) else lookup rest token
      end
  end.

(** [[item for item in items if item["id"] != int(item_id)]]. *)
Fixpoint without (l : list item) (token : string) : exn + list item :=
  match l with
  | [] => inr []
  | it :: rest =>
      match PyInt.int token with
      | None => inl ValueError
      | Some n =>
          match without rest token with
          | inl e => inl e
          | inr rest' =>
              inr (if negb (item_id it =? n) then it :: rest' else rest')
          end
      end
  end.

(** [existing_item.update(data)] on the first element for which
    [item["id"] == n]: the dict found by [lookup] is mutated in place. *)
Fixpoint update_first (l : list item) (n : Z) (data : ItemSchema)
  : list item :=
  match l with
  | [] => []
  | it :: rest =>
      if item_id it =? n
      then mkItem (item_id it) (name data) (price data) :: rest
      else it :: update_first rest n data
  end.

(** ** The handlers of [class Item(Resource)] *)

Module Item.
Section Handlers.

(** [request.get_json()], [err.messages] and [item_schema.load]. *)
Variable payload : Type.
Variable messages : Type.
Variable load : payload -> messages + ItemSchema.

Definition result : Type := outcome messages * list item.

Definition get (token : option string) (l : list item) : result :=
  match token with
  | None | Some "" => (Return (AllItems l) 200, l)
  | Some t =>
      match lookup l t with
      | inl e => (Raise e, l)
      | inr None => (Return (Message "Item not found") 404, l)
      | inr (Some it) => (Return (OneItem it) 200, l)
      end
  end.

Definition post (json : payload) (l : list item) : result :=
  match load json with
  | inl errs => (Return (MessageErrors "Invalid input" errs) 400, l)
  | inr data =>
      let new_id :=
        match l with
        | first :: rest => max_id first rest + 1
        | [] => 1
        end in
      let created := mkItem new_id (name data) (price data) in
      (Return (MessageItem "Item created" created) 201,
       (l ++ [created])%list)
  end.

Definition put (token : string) (json : payload) (l : list item)
  : result :=
  match lookup l token with
  | inl e => (Raise e, l)
  | inr None => (Return (Message "Item not found") 404, l)
  | inr (Some existing_item) =>
      match load json with
      | inl errs => (Return (MessageErrors "Invalid input" errs) 400, l)
      | inr data =>
          let updated :=
            mkItem (item_id existing_item) (name data) (price data) in
          (Return (MessageItem "Item updated" updated) 200,
           update_first l (item_id existing_item) data)
      end
  end.

Definition delete (token : string) (l : list item) : result :=
  match lookup l token with
  | inl e => (Raise e, l)
  | inr None => (Return (Message "Item not found") 404, l)
  | inr (Some _) =>
      match without l token with
      | inl e => (Raise e, l)
      | inr l' => (Return (Message "Item deleted") 200, l')
      end
  end.

End Handlers.
End Item.

(** ** Vocabulary of the statements *)

(** The ids present, in list order. *)
Definition ids (l : list item) : list Z := map item_id l.

Definition has_id (n : Z) (it : item) : bool := item_id it =? n.

(** Removal by id, stated without [filter]: the second list is the first
    one with the elements carrying [n] dropped and the others kept, in
    order. *)
Inductive removed (n : Z) : list item -> list item -> Prop :=
| removed_nil : removed n [] []
| removed_drop it l l' :
    item_id it = n -> removed n l l' -> removed n (it :: l) l'
| removed_keep it l l' :
    item_id it <> n -> removed n l l' -> removed n (it :: l) (it :: l').

(** ** Requests and runs *)

(** The five routes registered by [api.add_resource(Item, '/items',
    '/items/<string:item_id>')]. *)
Inductive request (payload : Type) : Type :=
| GetAll
| Get (token : string)
| Post (json : payload)
| Put (token : string) (json : payload)
| Delete (token : string).

Arguments GetAll {payload}.
Arguments Get {payload} token.
Arguments Post {payload} json.
Arguments Put {payload} token json.
Arguments Delete {payload} token.

Section Dispatch.

Variable payload : Type.
Variable messages : Type.
Variable load : payload -> messages + ItemSchema.

Definition handle (r : request payload) (l : list item)
  : Item.result messages :=
  match r with
  | GetAll => Item.get messages None l
  | Get t => Item.get messages (Some t) l
  | Post j => Item.post payload messages load j l
  | Put t j => Item.put payload messages load t j l
  | Delete t => Item.delete messages t l
  end.

(** The list after serving the requests in order. *)
Fixpoint run (rs : list (request payload)) (l : list item) : list item :=
  match rs with
  | [] => l
  | r :: rs' => run rs' (snd (handle r l))
  end.

End Dispatch.

(** The status code of a response, when there is one. *)
Definition status_of {messages : Type} (o : outcome messages) : option Z :=
  match o with
  | Return _ status => Some status
  | Raise _ => None
  end.

(** ** Concrete requests

    For scenarios a request body is represented by what the schema makes of
    it: the loaded data, or the error messages by field. *)
Module Scenario.

Definition messages : Type := list (string * list string).
Definition payload : Type := (messages + ItemSchema)%type.
Definition load (p : payload) : messages + ItemSchema := p.

Definition valid (n : string) (p : number) : payload :=
  inr (mkData n p).

Definition missing_name : payload :=
  inl [("name", ["Missing data for required field."])].

Definition handle := handle payload messages load.
Definition run := run payload messages load.

End Scenario.

(** ** The API description served by [swagger_json] *)

(** A JSON value as Python builds it from literals: a [dict] keeps its
    entries in source order. *)
#[local] Unset Elimination Schemes.
Inductive json : Type :=
| JString (s : string)
| JInt (n : Z)
| JBool (b : bool)
| JArray (elems : list json)
| JObject (fields : list (string * json)).
#[local] Set Elimination Schemes.

(** The body schema both [post] and [put] document. *)
Definition body_parameter : json :=
  JObject
    [ ("in", JString "body");
      ("name", JString "body");
      ("required", JBool true);
      ("schema",
       JObject
         [ ("type", JString "object");
           ("properties",
            JObject
              [ ("name", JObject [("type", JString "string")]);
                ("price", JObject [("type", JString "number")]) ]);
           ("required", JArray [JString "name"; JString "price"]) ]) ].

Definition path_parameter : json :=
  JObject
    [ ("name", JString "item_id");
      ("in", JString "path");
      ("required", JBool true);
      ("type", JString "string") ].

Definition described (text : string) : json :=
  JObject [("description", JString text)].

(** The dict handed to [jsonify] by [swagger_json] (the response has
    status 200).  [body_parameter], [path_parameter] and [described] stand
    for sub-dicts the source writes out in full each time. *)
Definition swagger_json : json :=
  JObject
    [ ("swagger", JString "2.0");
      ("info",
       JObject
         [ ("title", JString "Flask CRUD API");
           ("description",
            JString "A sample API for CRUD operations with validation");
           ("version", JString "1.0.0") ]);
      ("host", JString "localhost:5000");
      ("basePath", JString "/");
      ("schemes", JArray [JString "http"]);
      ("tags",
       JArray
         [ JObject
             [ ("name", JString "Items");
               ("description", JString "Item management operations") ] ]);
      ("consumes", JArray [JString "application/json"]);
      ("produces", JArray [JString "application/json"]);
      ("paths",
       JObject
         [ ("/items",
            JObject
              [ ("get",
                 JObject
                   [ ("tags", JArray [JString "Items"]);
                     ("summary", JString "Get all items");
                     ("responses",
                      JObject
                        [ ("200",
                           JObject
                             [ ("description", JString "A list of items");
                               ("examples",
                                JObject
                                  [ ("application/json",
                                     JObject
                                       [ ("items",
                                          JArray
                                            [ JObject
                                                [ ("id", JInt 1);
                                                  ("name", JString "Laptop");
                                                  ("price", JInt 1500) ] ])
                                       ]) ]) ]) ]) ]);
                ("post",
                 JObject
                   [ ("tags", JArray [JString "Items"]);
                     ("summary", JString "Create a new item");
                     ("parameters", JArray [body_parameter]);
                     ("responses",
                      JObject
                        [ ("201", described "Item created");
                          ("400", described "Invalid input") ]) ]) ]);
           ("/items/{item_id}",
            JObject
              [ ("get",
                 JObject
                   [ ("tags", JArray [JString "Items"]);
                     ("summary", JString "Get a specific item");
                     ("parameters", JArray [path_parameter]);
                     ("responses",
                      JObject
                        [ ("200", described "Item details");
                          ("404", described "Item not found") ]) ]);
                ("put",
                 JObject
                   [ ("tags", JArray [JString "Items"]);
                     ("summary", JString "Update an item");
                     ("parameters",
                      JArray [path_parameter; body_parameter]);
                     ("responses",
                      JObject
                        [ ("200", described "Item updated");
                          ("400", described "Invalid input");
                          ("404", described "Item not found") ]) ]);
                ("delete",
                 JObject
                   [ ("tags", JArray [JString "Items"]);
                     ("summary", JString "Delete an item");
                     ("parameters", JArray [path_parameter]);
                     ("responses",
                      JObject
                        [ ("200", described "Item deleted");
                          ("404", described "Item not found") ]) ]) ]) ]) ].

(** [d.get(key)] on a dict. *)
Fixpoint assoc (key : string) (fields : list (string * json))
  : option json :=
  match fields with
  | [] => None
  | (k, v) :: rest => if String.eqb k key then Some v else assoc key rest
  end.

Definition field (key : string) (j : json) : option json :=
  match j with
  | JObject fields => assoc key fields
  | _ => None
  end.

(** Following a path of keys down from a value. *)
Fixpoint at_path (keys : list string) (j : json) : option json :=
  match keys with
  | [] => Some j
  | k :: rest =>
      match field k j with
      | Some v => at_path rest v
      | None => None
      end
  end.

(** The description the document gives for a status of an operation. *)
Definition documented (path method status : string) : option string :=
  match at_path ["paths"; path; method; "responses"; status; "description"]
          swagger_json with
  | Some (JString text) => Some text
  | _ => None
  end.

(** The path and method under which the document describes a request:
    [api.add_resource(Item, '/items', '/items/<string:item_id>')] sends a
    request to the method of [Item] named after its HTTP verb. *)
Definition operation_of {payload : Type} (r : request payload)
  : string * string :=
  match r with
  | GetAll => ("/items", "get")
  | Post _ => ("/items", "post")
  | Get _ => ("/items/{item_id}", "get")
  | Put _ _ => ("/items/{item_id}", "put")
  | Delete _ => ("/items/{item_id}", "delete")
  end.

(** The ["message"] entry of a response body, if it has one. *)
Definition message_of {messages : Type} (b : body messages)
  : option string :=
  match b with
  | Message m | MessageItem m _ | MessageErrors m _ => Some m
  | OneItem _ | AllItems _ => None
  end.

(** ** Facts about the list operations *)

(** Once the token parses, the scan is a plain [find]. *)
Lemma lookup_parsed (l : list item) (token : string) (n : Z) :
  PyInt.int token = Some n ->
  lookup l token = inr (find (has_id n) l).
Proof.
  intros Hn. induction l as [|it rest IH]; simpl.
  - reflexivity.
  - rewrite Hn. unfold has_id at 1.
    destruct (item_id it =? n); [reflexivity | exact IH].
Qed.

Lemma lookup_unparsed (it : item) (rest : list item) (token : string) :
  PyInt.int token = None ->
  lookup (it :: rest) token = inl ValueError.
Proof. intros Hn. simpl. now rewrite Hn. Qed.

(** Once the token parses, the comprehension is a plain [filter]. *)
Lemma without_parsed (l : list item) (token : string) (n : Z) :
  PyInt.int token = Some n ->
  without l token = inr (filter (fun it => negb (has_id n it)) l).
Proof.
  intros Hn. induction l as [|it rest IH]; simpl.
  - reflexivity.
  - rewrite Hn, IH. reflexivity.
Qed.

Lemma find_has_id_none (l : list item) (n : Z) :
  find (has_id n) l = None <-> ~ In n (ids l).
Proof.
  unfold has_id. induction l as [|it rest IH]; simpl.
  - tauto.
  - destruct (Z.eqb_spec (item_id it) n) as [E|E].
    + split; [discriminate | intros H; exfalso; apply H; now left].
    + rewrite IH. tauto.
Qed.

(** The element found is the first one carrying the id. *)
Lemma find_has_id_some (l : list item) (n : Z) (it : item) :
  find (has_id n) l = Some it ->
  exists before after,
    l = (before ++ it :: after)%list /\
    item_id it = n /\ ~ In n (ids before).
Proof.
  unfold has_id. revert it. induction l as [|x rest IH]; simpl; intros it H.
  - discriminate.
  - destruct (Z.eqb_spec (item_id x) n) as [E|E].
    + inversion H; subst x. exists [], rest. simpl. tauto.
    + destruct (IH it H) as (before & after & -> & Hid & Hnot).
      exists (x :: before), after. simpl. repeat split; try assumption.
      intros [F|F]; [now apply E | now apply Hnot].
Qed.

Lemma fold_max_ge (rest : list item) (m : Z) :
  m <= fold_left (fun a it => Z.max a (item_id it)) rest m.
Proof.
  revert m. induction rest as [|x rest IH]; simpl; intros m.
  - lia.
  - specialize (IH (Z.max m (item_id x))). lia.
Qed.

Lemma fold_max_bound (rest : list item) (m n : Z) :
  In n (ids rest) ->
  n <= fold_left (fun a it => Z.max a (item_id it)) rest m.
Proof.
  revert m. induction rest as [|x rest IH]; simpl; intros m H.
  - contradiction.
  - destruct H as [H|H].
    + pose proof (fold_max_ge rest (Z.max m (item_id x))). lia.
    + now apply IH.
Qed.

Lemma fold_max_in (rest : list item) (m : Z) :
  let r := fold_left (fun a it => Z.max a (item_id it)) rest m in
  r = m \/ In r (ids rest).
Proof.
  revert m. induction rest as [|x rest IH]; simpl; intros m.
  - now left.
  - destruct (IH (Z.max m (item_id x))) as [H|H].
    + rewrite H. destruct (Z.max_spec m (item_id x)) as [[_ E]|[_ E]];
        rewrite E; auto.
    + right. now right.
Qed.

(** [max_id] is an upper bound of the ids present ... *)
Lemma max_id_bound (first : item) (rest : list item) (n : Z) :
  In n (ids (first :: rest)) -> n <= max_id first rest.
Proof.
  unfold max_id. simpl. intros [H|H].
  - subst n. apply fold_max_ge.
  - now apply fold_max_bound.
Qed.

(** ... and is one of them. *)
Lemma max_id_in (first : item) (rest : list item) :
  In (max_id first rest) (ids (first :: rest)).
Proof.
  unfold max_id. simpl.
  destruct (fold_max_in rest (item_id first)) as [H|H]; auto.
Qed.

Lemma ids_app (l1 l2 : list item) : ids (l1 ++ l2) = (ids l1 ++ ids l2)%list.
Proof. apply map_app. Qed.

Lemma ids_update_first (l : list item) (n : Z) (data : ItemSchema) :
  ids (update_first l n data) = ids l.
Proof.
  induction l as [|x rest IH]; simpl.
  - reflexivity.
  - destruct (item_id x =? n); simpl; [reflexivity | now rewrite IH].
Qed.

Lemma ids_filter_in (f : item -> bool) (l : list item) (n : Z) :
  In n (ids (filter f l)) -> In n (ids l).
Proof.
  induction l as [|x rest IH]; simpl.
  - tauto.
  - destruct (f x); simpl; tauto.
Qed.

Lemma ids_filter_nodup (f : item -> bool) (l : list item) :
  NoDup (ids l) -> NoDup (ids (filter f l)).
Proof.
  induction l as [|x rest IH]; simpl; intros H.
  - constructor.
  - inversion H as [|? ? Hx Hrest]; subst.
    destruct (f x); simpl.
    + constructor; [|now apply IH].
      intros F. apply Hx. now apply ids_filter_in in F.
    + now apply IH.
Qed.

Lemma update_first_split (before after : list item) (it : item) (n : Z)
      (data : ItemSchema) :
  item_id it = n -> ~ In n (ids before) ->
  update_first (before ++ it :: after) n data =
  (before ++ mkItem (item_id it) (name data) (price data) :: after)%list.
Proof.
  intros Hit. induction before as [|x before IH]; simpl; intros Hnot.
  - rewrite Hit, Z.eqb_refl. reflexivity.
  - destruct (Z.eqb_spec (item_id x) n) as [E|E].
    + exfalso. apply Hnot. now left.
    + rewrite IH; [reflexivity | tauto].
Qed.

Lemma filter_removed (n : Z) (l : list item) :
  removed n l (filter (fun it => negb (has_id n it)) l).
Proof.
  induction l as [|x l IH]; simpl.
  - constructor.
  - unfold has_id at 1. destruct (Z.eqb_spec (item_id x) n) as [E|E]; simpl.
    + now apply removed_drop.
    + now apply removed_keep.
Qed.

Lemma removed_in (n : Z) (l l' : list item) :
  removed n l l' ->
  forall it, In it l' <-> In it l /\ item_id it <> n.
Proof.
  induction 1 as [|x l l' Hx _ IH|x l l' Hx _ IH]; intros it; simpl.
  - tauto.
  - rewrite IH. split; [tauto|]. intros [[E|H] Hn]; [|tauto].
    subst x. contradiction.
  - rewrite IH. split; [|tauto]. intros [E|H]; [|tauto].
    subst x. tauto.
Qed.

(** An element appended with an id above all others is the one found. *)
Lemma find_appended (l : list item) (created : item) :
  (forall n, In n (ids l) -> n < item_id created) ->
  find (has_id (item_id created)) (l ++ [created])%list = Some created.
Proof.
  induction l as [|x rest IH]; simpl; intros Hbound.
  - unfold has_id. now rewrite Z.eqb_refl.
  - unfold has_id at 1.
    destruct (Z.eqb_spec (item_id x) (item_id created)) as [E|E].
    + specialize (Hbound (item_id x)). lia.
    + apply IH. intros n Hin. apply Hbound. now right.
Qed.

Lemma in_ids (l : list item) (n : Z) :
  In n (ids l) <-> exists it, In it l /\ item_id it = n.
Proof.
  unfold ids. rewrite in_map_iff. split; intros (it & H1 & H2); eauto.
Qed.

Lemma int_empty : PyInt.int "" = None.
Proof. reflexivity. Qed.

(** ** Decimal numerals are read back by [int] *)

Lemma lstrip_no_space (cs : list ascii) :
  (forall c, In c cs -> PyInt.is_space c = false) -> PyInt.lstrip cs = cs.
Proof.
  destruct cs as [|c r]; simpl; intros H; [reflexivity|].
  now rewrite (H c (or_introl eq_refl)).
Qed.

Lemma strip_no_space (cs : list ascii) :
  (forall c, In c cs -> PyInt.is_space c = false) -> PyInt.strip cs = cs.
Proof.
  intros H. unfold PyInt.strip.
  rewrite (lstrip_no_space cs H), lstrip_no_space.
  - apply rev_involutive.
  - intros c Hc. apply H. now apply in_rev.
Qed.

Lemma numeral_no_space (d : Decimal.uint) (c : ascii) :
  In c (list_ascii_of_string (NilEmpty.string_of_uint d)) ->
  PyInt.is_space c = false.
Proof.
  induction d; simpl; intros H;
    try contradiction; (destruct H as [<-|H]; [reflexivity | auto]).
Qed.

Lemma digits_numeral_acc (d : Decimal.uint) (p : positive) :
  PyInt.digits (Z.pos p) true
    (list_ascii_of_string (NilEmpty.string_of_uint d))
  = Some (Z.pos (Pos.of_uint_acc d p)).
Proof.
  revert p. induction d; intros p;
    try reflexivity;
    cbn [NilEmpty.string_of_uint list_ascii_of_string PyInt.digits
         Pos.of_uint_acc];
    change (PyInt.is_underscore _) with false; cbv iota;
    match goal with
    | |- context [PyInt.digit_val ?c] =>
        let v := eval vm_compute in (PyInt.digit_val c) in
        change (PyInt.digit_val c) with v
    end; cbv iota; rewrite <- IHd; f_equal; lia.
Qed.

Lemma digits_numeral (d : Decimal.uint) :
  PyInt.digits 0 true (list_ascii_of_string (NilEmpty.string_of_uint d))
  = Some (Z.of_uint d).
Proof.
  induction d; try reflexivity;
    cbn [NilEmpty.string_of_uint list_ascii_of_string PyInt.digits];
    change (PyInt.is_underscore _) with false; cbv iota;
    match goal with
    | |- context [PyInt.digit_val ?c] =>
        let v := eval vm_compute in (PyInt.digit_val c) in
        change (PyInt.digit_val c) with v
    end; cbv iota;
    try exact IHd;
    change (10 * 0 + ?k) with k; apply digits_numeral_acc.
Qed.

Lemma digits_numeral_first (d : Decimal.uint) :
  d <> Decimal.Nil ->
  PyInt.digits 0 false (list_ascii_of_string (NilEmpty.string_of_uint d))
  = Some (Z.of_uint d).
Proof.
  intros Hd. rewrite <- digits_numeral.
  destruct d; try congruence; reflexivity.
Qed.

Lemma signed_numeral (d : Decimal.uint) :
  d <> Decimal.Nil ->
  PyInt.signed (list_ascii_of_string (NilEmpty.string_of_uint d))
  = Some (Z.of_uint d).
Proof.
  intros Hd. rewrite <- (digits_numeral_first d Hd).
  destruct d; try congruence; reflexivity.
Qed.

Lemma to_uint_not_nil (p : positive) : Pos.to_uint p <> Decimal.Nil.
Proof.
  intros H. pose proof (DecimalPos.Unsigned.of_to p) as E.
  rewrite H in E. discriminate.
Qed.

Lemma of_to_uint (p : positive) : Z.of_uint (Pos.to_uint p) = Z.pos p.
Proof.
  unfold Z.of_uint. now rewrite DecimalPos.Unsigned.of_to.
Qed.

Lemma string_of_to_uint (p : positive) :
  NilZero.string_of_uint (Pos.to_uint p)
  = NilEmpty.string_of_uint (Pos.to_uint p).
Proof.
  pose proof (to_uint_not_nil p) as Hp. unfold NilZero.string_of_uint.
  destruct (Pos.to_uint p); congruence.
Qed.

(** [int(str(n)) == n]: every integer is named by a token, its numeral. *)
Lemma int_str (n : Z) : PyInt.int (PyInt.str n) = Some n.
Proof.
  destruct n as [|p|p]; [reflexivity| |];
    unfold PyInt.int, PyInt.str; simpl Z.to_int;
    pose proof (to_uint_not_nil p) as Hp;
    unfold NilZero.string_of_int; rewrite string_of_to_uint.
  - rewrite strip_no_space by apply numeral_no_space.
    rewrite (signed_numeral _ Hp). now rewrite of_to_uint.
  - cbn [list_ascii_of_string]. rewrite strip_no_space.
    + cbn [PyInt.signed]. rewrite (digits_numeral_first _ Hp).
      simpl. now rewrite of_to_uint.
    + intros c [<-|H]; [reflexivity | now apply numeral_no_space in H].
Qed.

(** ** The handlers on a token that parses *)

Section HandlerFacts.

Variable payload : Type.
Variable messages : Type.
Variable load : payload -> messages + ItemSchema.

Let get := Item.get messages.
Let post := Item.post payload messages load.
Let put := Item.put payload messages load.
Let delete := Item.delete messages.

Lemma get_parsed (token : string) (n : Z) (l : list item) :
  PyInt.int token = Some n ->
  get (Some token) l =
  match find (has_id n) l with
  | None => (Return (Message "Item not found") 404, l)
  | Some it => (Return (OneItem it) 200, l)
  end.
Proof.
  intros Hn. unfold get, Item.get. destruct token as [|c s].
  - rewrite int_empty in Hn. discriminate.
  - rewrite (lookup_parsed l _ n Hn). reflexivity.
Qed.

Lemma put_parsed (token : string) (n : Z) (json : payload)
      (l : list item) :
  PyInt.int token = Some n ->
  put token json l =
  match find (has_id n) l with
  | None => (Return (Message "Item not found") 404, l)
  | Some it =>
      match load json with
      | inl errs => (Return (MessageErrors "Invalid input" errs) 400, l)
      | inr data =>
          (Return (MessageItem "Item updated"
                     (mkItem (item_id it) (name data) (price data))) 200,
           update_first l (item_id it) data)
      end
  end.
Proof.
  intros Hn. unfold put, Item.put.
  rewrite (lookup_parsed l _ n Hn). reflexivity.
Qed.

Lemma delete_parsed (token : string) (n : Z) (l : list item) :
  PyInt.int token = Some n ->
  delete token l =
  match find (has_id n) l with
  | None => (Return (Message "Item not found") 404, l)
  | Some _ =>
      (Return (Message "Item deleted") 200,
       filter (fun it => negb (has_id n it)) l)
  end.
Proof.
  intros Hn. unfold delete, Item.delete.
  rewrite (lookup_parsed l _ n Hn), (without_parsed l _ n Hn).
  reflexivity.
Qed.

(** An update never changes the ids present. *)
Lemma put_keeps_ids (token : string) (json : payload) (l : list item) :
  ids (snd (put token json l)) = ids l.
Proof.
  unfold put, Item.put.
  destruct (lookup l token) as [e|[it|]]; simpl; try reflexivity.
  destruct (load json); simpl; [reflexivity | apply ids_update_first].
Qed.

(** An integer token that names no element is answered 404 by the three
    by-id handlers, whatever the body. *)
Lemma unknown_id_not_found (token : string) (n : Z) (json : payload)
      (l : list item) :
  PyInt.int token = Some n -> ~ In n (ids l) ->
  get (Some token) l = (Return (Message "Item not found") 404, l) /\
  put token json l = (Return (Message "Item not found") 404, l) /\
  delete token l = (Return (Message "Item not found") 404, l).
Proof.
  intros Hn Hnot. apply find_has_id_none in Hnot.
  rewrite (get_parsed _ _ _ Hn), (put_parsed _ _ _ _ Hn),
    (delete_parsed _ _ _ Hn), Hnot. auto.
Qed.

(** On an empty list nothing is parsed: every token is answered 404. *)
Lemma empty_store_not_found (c : ascii) (s : string) (json : payload) :
  get (Some (String c s)) [] = (Return (Message "Item not found") 404, []) /\
  put (String c s) json [] = (Return (Message "Item not found") 404, []) /\
  delete (String c s) [] = (Return (Message "Item not found") 404, []).
Proof. repeat split. Qed.

(** A token that is not an integer makes the three by-id handlers raise
    as soon as there is an element to compare with. *)
Lemma non_integer_token_raises (c : ascii) (s : string) (json : payload)
      (it : item) (rest : list item) :
  PyInt.int (String c s) = None ->
  get (Some (String c s)) (it :: rest) = (Raise ValueError, it :: rest) /\
  put (String c s) json (it :: rest) = (Raise ValueError, it :: rest) /\
  delete (String c s) (it :: rest) = (Raise ValueError, it :: rest).
Proof.
  intros Hn. unfold get, put, delete, Item.get, Item.put, Item.delete.
  rewrite (lookup_unparsed it rest _ Hn). auto.
Qed.

End HandlerFacts.


(** ** Properties of the store *)

Section Store.

Variable payload : Type.
Variable messages : Type.
Variable load : payload -> messages + ItemSchema.

Let get := Item.get messages.
Let post := Item.post payload messages load.
Let put := Item.put payload messages load.
Let delete := Item.delete messages.

(** The id given by [post] exceeds every id present. *)
Lemma post_valid (json : payload) (data : ItemSchema) (l : list item) :
  load json = inr data ->
  exists created,
    post json l =
      (Return (MessageItem "Item created" created) 201,
       (l ++ [created])%list) /\
    item_name created = name data /\
    item_price created = price data /\
    (l = [] -> item_id created = 1) /\
    (l <> [] -> In (item_id created - 1) (ids l)) /\
    (forall n, In n (ids l) -> n < item_id created).
Proof.
  intros Hload. unfold post, Item.post. rewrite Hload.
  eexists. split; [reflexivity|]. simpl. repeat split.
  - intros ->. reflexivity.
  - intros Hne. destruct l as [|first rest]; [congruence|].
    replace (max_id first rest + 1 - 1) with (max_id first rest) by lia.
    apply max_id_in.
  - intros n Hin. destruct l as [|first rest]; [contradiction|].
    apply max_id_bound in Hin. lia.
Qed.

(** C2: for every valid create payload the new item is appended at the end
    of the collection and its id is one more than the maximum id present
    just before the call, or 1 if the collection was empty; the answer is
    201 "Item created" with the created record. *)
Theorem post_assigns_next_id (json : payload) (data : ItemSchema)
        (l : list item) :
  load json = inr data ->
  exists created,
    post json l =
      (Return (MessageItem "Item created" created) 201,
       (l ++ [created])%list) /\
    item_name created = name data /\
    item_price created = price data /\
    (l = [] -> item_id created = 1) /\
    (l <> [] ->
     In (item_id created - 1) (ids l) /\
     forall n, In n (ids l) -> n <= item_id created - 1).
Proof.
  intros Hload.
  destruct (post_valid json data l Hload)
    as (created & Hpost & Hname & Hprice & Hnil & Hmax & Hbound).
  exists created. repeat split; auto.
  intros n Hin. apply Hbound in Hin. lia.
Qed.

(** The order of checks in [put], for a token [int] reads as an integer
    carried by no item: the answer is 404 "Item not found" for every body,
    valid or not, and the collection is untouched. *)
Lemma put_unknown_id_before_validation (token : string) (n : Z)
        (json : payload) (l : list item) :
  PyInt.int token = Some n ->
  ~ In n (ids l) ->
  put token json l = (Return (Message "Item not found") 404, l).
Proof.
  intros Hn Hnot.
  apply (unknown_id_not_found payload messages load token n json l Hn Hnot).
Qed.

(** C4, as amended: a create whose payload fails validation, and an update
    of an existing item whose payload fails validation, are answered 400
    "Invalid input" with the error messages, and whatever an update with
    such a payload answers, the collection is left as it was. *)
Theorem invalid_payload_rejected (json : payload) (errs : messages)
        (l : list item) :
  load json = inl errs ->
  post json l = (Return (MessageErrors "Invalid input" errs) 400, l) /\
  (forall token n,
      PyInt.int token = Some n -> In n (ids l) ->
      put token json l =
        (Return (MessageErrors "Invalid input" errs) 400, l)) /\
  (forall token, snd (put token json l) = l).
Proof.
  intros Hload. repeat split.
  - unfold post, Item.post. now rewrite Hload.
  - intros token n Hn Hin. unfold put. rewrite (put_parsed _ _ _ _ n _ _ Hn).
    destruct (find (has_id n) l) as [it|] eqn:Hfind.
    + now rewrite Hload.
    + apply find_has_id_none in Hfind. contradiction.
  - intros token. unfold put, Item.put.
    destruct (lookup l token) as [e|[it|]]; simpl; try reflexivity.
    now rewrite Hload.
Qed.

(** Each request keeps the ids pairwise distinct. *)
Lemma handle_keeps_ids_distinct (r : request payload) (l : list item) :
  NoDup (ids l) -> NoDup (ids (snd (handle payload messages load r l))).
Proof.
  intros Hl. destruct r as [|t|j|t j|t]; simpl.
  - exact Hl.
  - unfold Item.get. destruct t; simpl; [exact Hl|].
    destruct (lookup l _) as [e|[it|]]; exact Hl.
  - destruct (load j) as [errs|data] eqn:Hload.
    + unfold Item.post. rewrite Hload. exact Hl.
    + destruct (post_valid j data l Hload)
        as (created & Hpost & _ & _ & _ & _ & Hb).
      unfold post in Hpost. rewrite Hpost. simpl.
      rewrite ids_app. simpl. apply NoDup_app.
      * exact Hl.
      * constructor; [intros []|constructor].
      * intros n Hin [E|[]]. subst n. apply Hb in Hin. lia.
  - pose proof (put_keeps_ids payload messages load t j l) as E.
    simpl in E. rewrite E. exact Hl.
  - unfold Item.delete. destruct (PyInt.int t) as [n|] eqn:Hn.
    + rewrite (lookup_parsed l t n Hn), (without_parsed l t n Hn).
      destruct (find (has_id n) l); simpl; [|exact Hl].
      now apply ids_filter_nodup.
    + destruct l as [|it rest]; [exact Hl|].
      rewrite (lookup_unparsed it rest t Hn). exact Hl.
Qed.

Lemma run_keeps_ids_distinct (rs : list (request payload)) (l : list item) :
  NoDup (ids l) -> NoDup (ids (run payload messages load rs l)).
Proof.
  revert l. induction rs as [|r rs IH]; simpl; intros l Hl.
  - exact Hl.
  - apply IH. now apply handle_keeps_ids_distinct.
Qed.

(** C5: starting from the three seed records, after any sequence of
    requests (list, get, create, update, delete, succeeding or not) the ids
    in the collection are pairwise distinct. *)
Theorem ids_always_distinct (rs : list (request payload)) :
  NoDup (ids (run payload messages load rs items)).
Proof.
  apply run_keeps_ids_distinct. simpl.
  repeat constructor; simpl; intuition lia.
Qed.

(** C6: a successful update overwrites the name and price of the matched
    item (the first one carrying the id) with the payload's, keeps its id,
    leaves every other item and the order as they were, and answers 200
    "Item updated" with the updated record. *)
Theorem put_overwrites_matched_item (token : string) (n : Z)
        (json : payload) (data : ItemSchema) (l : list item) :
  PyInt.int token = Some n ->
  In n (ids l) ->
  load json = inr data ->
  exists before it after,
    l = (before ++ it :: after)%list /\
    item_id it = n /\
    ~ In n (ids before) /\
    put token json l =
      (Return (MessageItem "Item updated"
                 (mkItem (item_id it) (name data) (price data))) 200,
       (before ++ mkItem (item_id it) (name data) (price data) :: after)%list).
Proof.
  intros Hn Hin Hload. unfold put. rewrite (put_parsed _ _ _ _ n _ _ Hn).
  destruct (find (has_id n) l) as [it|] eqn:Hfind.
  - destruct (find_has_id_some l n it Hfind)
      as (before & after & Hl & Hid & Hnot).
    exists before, it, after. repeat split; try assumption.
    rewrite Hload. f_equal. rewrite Hl.
    apply update_first_split; [reflexivity | now rewrite Hid].
  - apply find_has_id_none in Hfind. contradiction.
Qed.

(** C7: a successful delete removes exactly the items whose id equals the
    requested id and keeps the others in their relative order. *)
Theorem delete_removes_by_id (token : string) (n : Z) (l : list item) :
  PyInt.int token = Some n ->
  In n (ids l) ->
  exists l',
    delete token l = (Return (Message "Item deleted") 200, l') /\
    removed n l l'.
Proof.
  intros Hn Hin. unfold delete. rewrite (delete_parsed _ _ _ _ Hn).
  destruct (find (has_id n) l) as [it|] eqn:Hfind.
  - eexists. split; [reflexivity | apply filter_removed].
  - apply find_has_id_none in Hfind. contradiction.
Qed.

(** After a successful delete the id is gone: asking for it again, or
    deleting it again, is answered 404. *)
Lemma delete_then_not_found (token : string) (n : Z) (json : payload)
      (l : list item) :
  PyInt.int token = Some n ->
  In n (ids l) ->
  ~ In n (ids (snd (delete token l))) /\
  get (Some token) (snd (delete token l)) =
    (Return (Message "Item not found") 404, snd (delete token l)) /\
  delete token (snd (delete token l)) =
    (Return (Message "Item not found") 404, snd (delete token l)).
Proof.
  intros Hn Hin.
  assert (Hgone : ~ In n (ids (snd (delete token l)))).
  { unfold delete. rewrite (delete_parsed _ _ _ _ Hn).
    destruct (find (has_id n) l) as [it|] eqn:Hfind.
    - simpl. rewrite in_ids. intros (x & Hx & Hid).
      apply (removed_in n l _ (filter_removed n l)) in Hx. tauto.
    - apply find_has_id_none in Hfind. contradiction. }
  split; [exact Hgone|].
  split; apply (unknown_id_not_found payload messages load token n json);
    assumption.
Qed.

(** C8: after a create with a valid payload, a get-by-id with the id the
    create returned (any token that [int] reads as that id) answers 200
    with the created record: the name and price of the payload, as
    loaded. *)
Theorem get_after_post (json : payload) (data : ItemSchema) (l l' : list item)
        (created : item) (status : Z) (message : string) (token : string) :
  load json = inr data ->
  post json l = (Return (MessageItem message created) status, l') ->
  PyInt.int token = Some (item_id created) ->
  exists it,
    get (Some token) l' = (Return (OneItem it) 200, l') /\
    item_id it = item_id created /\
    item_name it = name data /\
    item_price it = price data.
Proof.
  intros Hload Hpost Hn.
  destruct (post_valid json data l Hload)
    as (c & Hc & Hname & Hprice & _ & _ & Hbound).
  rewrite Hc in Hpost. inversion Hpost; subst; clear Hpost.
  exists created. unfold get. rewrite (get_parsed _ _ _ _ Hn).
  rewrite (find_appended l created Hbound). auto.
Qed.

(** The same with the token a client writes: the numeral of the id. *)
Lemma get_after_post_numeral (json : payload) (data : ItemSchema)
      (l : list item) :
  load json = inr data ->
  exists created,
    fst (post json l) = Return (MessageItem "Item created" created) 201 /\
    get (Some (PyInt.str (item_id created))) (snd (post json l)) =
      (Return (OneItem created) 200, snd (post json l)) /\
    item_name created = name data /\
    item_price created = price data.
Proof.
  intros Hload.
  destruct (post_valid json data l Hload)
    as (created & Hpost & Hname & Hprice & _ & _ & Hbound).
  exists created. rewrite Hpost. cbn [fst snd].
  repeat split; try assumption.
  unfold get. rewrite (get_parsed _ _ _ _ (int_str (item_id created))).
  now rewrite (find_appended l created Hbound).
Qed.

(** C9, as amended: deleting the item that holds the maximum id [m] and
    then creating an item assigns [m] again whenever an item with id
    [m - 1] is still present, or [m = 1] and the delete emptied the
    collection: the new id is computed from the ids present at the time of
    the create. *)
Theorem max_id_reused (token : string) (m : Z) (json : payload)
        (data : ItemSchema) (l : list item) :
  PyInt.int token = Some m ->
  In m (ids l) ->
  (forall n, In n (ids l) -> n <= m) ->
  In (m - 1) (ids l) \/ (m = 1 /\ forall n, In n (ids l) -> n = m) ->
  load json = inr data ->
  exists l' created,
    delete token l = (Return (Message "Item deleted") 200, l') /\
    post json l' =
      (Return (MessageItem "Item created" created) 201,
       (l' ++ [created])%list) /\
    item_id created = m.
Proof.
  intros Hn Hin Hmax Hprev Hload.
  set (l' := filter (fun it => negb (has_id m it)) l).
  assert (Hdel : delete token l = (Return (Message "Item deleted") 200, l')).
  { unfold delete. rewrite (delete_parsed _ _ _ _ Hn).
    destruct (find (has_id m) l) as [it|] eqn:Hfind; [reflexivity|].
    apply find_has_id_none in Hfind. contradiction. }
  assert (Hl' : forall n, In n (ids l') <-> In n (ids l) /\ n <> m).
  { intros n. rewrite !in_ids. split.
    - intros (x & Hx & Hid).
      apply (removed_in m l _ (filter_removed m l)) in Hx.
      split; [exists x; tauto | subst n; tauto].
    - intros ((x & Hx & Hid) & Hne). exists x. split; [|exact Hid].
      apply (removed_in m l _ (filter_removed m l)). subst n. tauto. }
  destruct (post_valid json data l' Hload)
    as (created & Hpost & _ & _ & Hnil & Hin' & Hbound).
  exists l', created. repeat split; try assumption.
  destruct Hprev as [Hprev|[Hone Hall]].
  - assert (Hp : In (m - 1) (ids l')) by (apply Hl'; split; [assumption|lia]).
    assert (Hne : l' <> []) by (intros E; rewrite E in Hp; exact Hp).
    pose proof (Hbound _ Hp) as Hlow.
    apply Hin', Hl' in Hne. destruct Hne as [Hhi Hneq].
    apply Hmax in Hhi. lia.
  - assert (Hempty : l' = []).
    { destruct l' as [|x rest] eqn:E; [reflexivity|]. exfalso.
      assert (Hx : In (item_id x) (ids (x :: rest))) by now left.
      apply Hl' in Hx. destruct Hx as [Hx Hneq]. apply Hall in Hx.
      contradiction. }
    rewrite (Hnil Hempty). lia.
Qed.

End Store.

(** ** The handlers on concrete requests *)

(** C1: the claim asks for 404 "Item not found" on every token that names
    no item, integer or not.  On the seed store the token "abc" is not an
    integer, and get-by-id, update-by-id and delete-by-id let the
    [ValueError] of [int("abc")] escape instead of answering 404. *)
Theorem non_integer_token_escapes :
  PyInt.int "abc" = None /\
  Item.get Scenario.messages (Some "abc") items = (Raise ValueError, items) /\
  Item.put Scenario.payload Scenario.messages Scenario.load
    "abc" (Scenario.valid "Monitor" (Float 300)) items
  = (Raise ValueError, items) /\
  Item.delete Scenario.messages "abc" items = (Raise ValueError, items).
Proof. repeat split. Qed.

(** C3: the claim asks for 404 "Item not found", before the body is
    validated, on every update whose id matches no item.  On the seed
    store the token "abc" matches no item, and an update with that token
    and a body the schema rejects ends in the [ValueError] of
    [int("abc")]: the answer is neither 404 nor 400. *)
Theorem put_unmatched_token_escapes_before_validation :
  PyInt.int "abc" = None /\
  Scenario.load Scenario.missing_name
  = inl [("name", ["Missing data for required field."])] /\
  Item.put Scenario.payload Scenario.messages Scenario.load
    "abc" Scenario.missing_name items
  = (Raise ValueError, items) /\
  status_of
    (fst (Item.put Scenario.payload Scenario.messages Scenario.load
            "abc" Scenario.missing_name items)) <> Some 404.
Proof.
  split; [reflexivity|]. split; [reflexivity|]. split; [reflexivity|].
  simpl. discriminate.
Qed.

Lemma post_assigns_next_id_witness :
  Scenario.load (Scenario.valid "Monitor" (Float 300))
  = inr (mkData "Monitor" (Float 300)) /\
  exists created,
    Item.post Scenario.payload Scenario.messages Scenario.load
      (Scenario.valid "Monitor" (Float 300)) items =
      (Return (MessageItem "Item created" created) 201,
       (items ++ [created])%list) /\
    item_name created = "Monitor" /\
    item_price created = Float 300 /\
    (items = [] -> item_id created = 1) /\
    (items <> [] ->
     In (item_id created - 1) (ids items) /\
     forall n, In n (ids items) -> n <= item_id created - 1).
Proof.
  split; [reflexivity|].
  apply (post_assigns_next_id Scenario.payload Scenario.messages
           Scenario.load (Scenario.valid "Monitor" (Float 300))
           (mkData "Monitor" (Float 300)) items).
  reflexivity.
Defined.

Lemma put_unknown_id_before_validation_witness :
  PyInt.int "99" = Some 99 /\
  ~ In 99 (ids items) /\
  Item.put Scenario.payload Scenario.messages Scenario.load
    "99" Scenario.missing_name items
  = (Return (Message "Item not found") 404, items).
Proof.
  assert (Hnot : ~ In 99 (ids items)) by (simpl; intuition lia).
  split; [reflexivity|]. split; [exact Hnot|].
  apply (put_unknown_id_before_validation Scenario.payload
           Scenario.messages Scenario.load "99" 99 Scenario.missing_name
           items); [reflexivity | exact Hnot].
Defined.

(** C4, as stated, fails on an update that names no item: the payload is
    rejected by the schema, yet the answer is 404 and not 400. *)
Lemma invalid_payload_unknown_id_is_404 :
  (exists errs, Scenario.load Scenario.missing_name = inl errs) /\
  status_of
    (fst (Item.put Scenario.payload Scenario.messages Scenario.load
            "99" Scenario.missing_name items)) = Some 404 /\
  status_of
    (fst (Item.put Scenario.payload Scenario.messages Scenario.load
            "99" Scenario.missing_name items)) <> Some 400.
Proof.
  split; [eexists; reflexivity|]. split; [reflexivity|].
  simpl. intros H. inversion H.
Qed.

Lemma invalid_payload_rejected_witness :
  Scenario.load Scenario.missing_name
  = inl [("name", ["Missing data for required field."])] /\
  Item.post Scenario.payload Scenario.messages Scenario.load
    Scenario.missing_name items
  = (Return (MessageErrors "Invalid input"
               [("name", ["Missing data for required field."])]) 400,
     items) /\
  (forall token n,
      PyInt.int token = Some n -> In n (ids items) ->
      Item.put Scenario.payload Scenario.messages Scenario.load
        token Scenario.missing_name items =
        (Return (MessageErrors "Invalid input"
                   [("name", ["Missing data for required field."])]) 400,
         items)) /\
  (forall token,
      snd (Item.put Scenario.payload Scenario.messages Scenario.load
             token Scenario.missing_name items) = items).
Proof.
  split; [reflexivity|].
  apply (invalid_payload_rejected Scenario.payload Scenario.messages
           Scenario.load Scenario.missing_name
           [("name", ["Missing data for required field."])] items).
  reflexivity.
Defined.

Lemma put_overwrites_matched_item_witness :
  PyInt.int "2" = Some 2 /\
  In 2 (ids items) /\
  Scenario.load (Scenario.valid "Smartphone" (Float 900))
  = inr (mkData "Smartphone" (Float 900)) /\
  exists before it after,
    items = (before ++ it :: after)%list /\
    item_id it = 2 /\
    ~ In 2 (ids before) /\
    Item.put Scenario.payload Scenario.messages Scenario.load
      "2" (Scenario.valid "Smartphone" (Float 900)) items =
      (Return (MessageItem "Item updated"
                 (mkItem (item_id it) "Smartphone" (Float 900))) 200,
       (before ++ mkItem (item_id it) "Smartphone" (Float 900) :: after)%list).
Proof.
  assert (Hin : In 2 (ids items)) by (simpl; auto).
  split; [reflexivity|]. split; [exact Hin|]. split; [reflexivity|].
  apply (put_overwrites_matched_item Scenario.payload Scenario.messages
           Scenario.load "2" 2 (Scenario.valid "Smartphone" (Float 900))
           (mkData "Smartphone" (Float 900)) items);
    [reflexivity | exact Hin | reflexivity].
Defined.

Lemma delete_removes_by_id_witness :
  PyInt.int "3" = Some 3 /\
  In 3 (ids items) /\
  exists l',
    Item.delete Scenario.messages "3" items
    = (Return (Message "Item deleted") 200, l') /\
    removed 3 items l'.
Proof.
  assert (Hin : In 3 (ids items)) by (simpl; auto).
  split; [reflexivity|]. split; [exact Hin|].
  apply (delete_removes_by_id Scenario.messages "3" 3 items);
    [reflexivity | exact Hin].
Defined.

Lemma get_after_post_witness :
  Scenario.load (Scenario.valid "Monitor" (Float 300))
  = inr (mkData "Monitor" (Float 300)) /\
  Item.post Scenario.payload Scenario.messages Scenario.load
    (Scenario.valid "Monitor" (Float 300)) items
  = (Return (MessageItem "Item created" (mkItem 4 "Monitor" (Float 300))) 201,
     (items ++ [mkItem 4 "Monitor" (Float 300)])%list) /\
  PyInt.int "4" = Some 4 /\
  exists it,
    Item.get Scenario.messages (Some "4")
      (items ++ [mkItem 4 "Monitor" (Float 300)])%list
    = (Return (OneItem it) 200,
       (items ++ [mkItem 4 "Monitor" (Float 300)])%list) /\
    item_id it = 4 /\
    item_name it = "Monitor" /\
    item_price it = Float 300.
Proof.
  split; [reflexivity|]. split; [reflexivity|]. split; [reflexivity|].
  apply (get_after_post Scenario.payload Scenario.messages Scenario.load
           (Scenario.valid "Monitor" (Float 300))
           (mkData "Monitor" (Float 300)) items
           (items ++ [mkItem 4 "Monitor" (Float 300)])%list
           (mkItem 4 "Monitor" (Float 300)) 201 "Item created" "4");
    reflexivity.
Defined.

(** C9, as stated, fails once there is a gap below the maximum: after
    [DELETE /items/2] the ids are 1 and 3; deleting the item with the
    maximum id 3 and creating an item then assigns 2, not 3. *)
Lemma max_id_not_reused_after_gap :
  ids (Scenario.run [Delete "2"] items) = [1; 3] /\
  Scenario.handle (Delete "3") (Scenario.run [Delete "2"] items)
  = (Return (Message "Item deleted") 200, [mkItem 1 "Laptop" (Int 1500)]) /\
  Scenario.handle (Post (Scenario.valid "Monitor" (Float 300)))
    [mkItem 1 "Laptop" (Int 1500)]
  = (Return (MessageItem "Item created" (mkItem 2 "Monitor" (Float 300))) 201,
     [mkItem 1 "Laptop" (Int 1500); mkItem 2 "Monitor" (Float 300)]) /\
  item_id (mkItem 2 "Monitor" (Float 300)) <> 3.
Proof. repeat split. simpl. lia. Qed.

Lemma max_id_reused_witness :
  PyInt.int "3" = Some 3 /\
  In 3 (ids items) /\
  (forall n, In n (ids items) -> n <= 3) /\
  (In (3 - 1) (ids items) \/ (3 = 1 /\ forall n, In n (ids items) -> n = 3)) /\
  Scenario.load (Scenario.valid "Monitor" (Float 300))
  = inr (mkData "Monitor" (Float 300)) /\
  exists l' created,
    Item.delete Scenario.messages "3" items
    = (Return (Message "Item deleted") 200, l') /\
    Item.post Scenario.payload Scenario.messages Scenario.load
      (Scenario.valid "Monitor" (Float 300)) l' =
      (Return (MessageItem "Item created" created) 201,
       (l' ++ [created])%list) /\
    item_id created = 3.
Proof.
  assert (Hin : In 3 (ids items)) by (simpl; auto).
  assert (Hmax : forall n, In n (ids items) -> n <= 3)
    by (simpl; intuition lia).
  assert (Hprev : In (3 - 1) (ids items)
                  \/ (3 = 1 /\ forall n, In n (ids items) -> n = 3))
    by (left; simpl; auto).
  split; [reflexivity|]. split; [exact Hin|]. split; [exact Hmax|].
  split; [exact Hprev|]. split; [reflexivity|].
  apply (max_id_reused Scenario.payload Scenario.messages Scenario.load
           "3" 3 (Scenario.valid "Monitor" (Float 300))
           (mkData "Monitor" (Float 300)) items);
    [reflexivity | exact Hin | exact Hmax | exact Hprev | reflexivity].
Defined.

(** ** The tests of [test.py], in file order on one server *)

Example int_examples :
  PyInt.int "12" = Some 12 /\ PyInt.int " 12 " = Some 12 /\
  PyInt.int "+1_000" = Some 1000 /\ PyInt.int "-7" = Some (-7) /\
  PyInt.int "007" = Some 7 /\ PyInt.int "abc" = None /\
  PyInt.int "" = None /\ PyInt.int "1__0" = None /\
  PyInt.int "_1" = None /\ PyInt.int "1_" = None /\
  PyInt.int "- 1" = None /\ PyInt.int "1 2" = None /\
  PyInt.int "1.0" = None.
Proof. repeat split. Qed.

Example test_get_all_items :
  Scenario.handle GetAll items = (Return (AllItems items) 200, items).
Proof. reflexivity. Qed.

Example test_create_item :
  Scenario.handle (Post (Scenario.valid "Monitor" (Float 300))) items
  = (Return (MessageItem "Item created" (mkItem 4 "Monitor" (Float 300))) 201,
     (items ++ [mkItem 4 "Monitor" (Float 300)])%list).
Proof. reflexivity. Qed.

Example test_get_specific_item :
  fst (Scenario.handle (Get "1")
         (Scenario.run [Post (Scenario.valid "Monitor" (Float 300))] items))
  = Return (OneItem (mkItem 1 "Laptop" (Int 1500))) 200.
Proof. reflexivity. Qed.

Example test_update_item :
  fst (Scenario.handle
         (Put "1" (Scenario.valid "Gaming Laptop" (Float 2000)))
         (Scenario.run [Post (Scenario.valid "Monitor" (Float 300))] items))
  = Return (MessageItem "Item updated"
              (mkItem 1 "Gaming Laptop" (Float 2000))) 200.
Proof. reflexivity. Qed.

Example test_delete_item :
  fst (Scenario.handle (Delete "3")
         (Scenario.run
            [Post (Scenario.valid "Monitor" (Float 300));
             Put "1" (Scenario.valid "Gaming Laptop" (Float 2000))] items))
  = Return (Message "Item deleted") 200 /\
  Scenario.handle (Get "3")
    (Scenario.run
       [Post (Scenario.valid "Monitor" (Float 300));
        Put "1" (Scenario.valid "Gaming Laptop" (Float 2000));
        Delete "3"] items)
  = (Return (Message "Item not found") 404,
     [mkItem 1 "Gaming Laptop" (Float 2000);
      mkItem 2 "Phone" (Int 800);
      mkItem 4 "Monitor" (Float 300)]).
Proof. split; reflexivity. Qed.

(** ** More facts about the list operations *)

Lemma ids_filter (n : Z) (l : list item) :
  ids (filter (fun it => negb (has_id n it)) l)
  = filter (fun i => negb (i =? n)) (ids l).
Proof.
  induction l as [|x l IH]; simpl; [reflexivity|].
  unfold has_id at 1. destruct (item_id x =? n); simpl; now rewrite IH.
Qed.

Lemma find_update_first_same (l : list item) (n : Z) (data : ItemSchema) :
  find (has_id n) (update_first l n data)
  = option_map (fun it => mkItem (item_id it) (name data) (price data))
      (find (has_id n) l).
Proof.
  induction l as [|x l IH]; simpl; [reflexivity|].
  unfold has_id at 2. destruct (item_id x =? n) eqn:E; simpl.
  - unfold has_id. simpl. now rewrite E.
  - unfold has_id at 1. now rewrite E.
Qed.

Lemma find_update_first_other (l : list item) (m n : Z)
      (data : ItemSchema) :
  m <> n ->
  find (has_id m) (update_first l n data) = find (has_id m) l.
Proof.
  intros Hne. induction l as [|x l IH]; simpl; [reflexivity|].
  destruct (Z.eqb_spec (item_id x) n) as [E|E]; simpl.
  - unfold has_id. simpl.
    destruct (Z.eqb_spec (item_id x) m); [lia | reflexivity].
  - now rewrite IH.
Qed.

Lemma update_first_twice (l : list item) (n : Z) (data : ItemSchema) :
  update_first (update_first l n data) n data = update_first l n data.
Proof.
  induction l as [|x l IH]; simpl; [reflexivity|].
  destruct (item_id x =? n) eqn:E; simpl; rewrite E; [reflexivity|].
  now rewrite IH.
Qed.

Lemma length_update_first (l : list item) (n : Z) (data : ItemSchema) :
  List.length (update_first l n data) = List.length l.
Proof.
  induction l as [|x l IH]; simpl; [reflexivity|].
  destruct (item_id x =? n); simpl; [reflexivity | now rewrite IH].
Qed.

Lemma find_app_present (l tail : list item) (m : Z) :
  In m (ids l) ->
  find (has_id m) (l ++ tail)%list = find (has_id m) l.
Proof.
  induction l as [|x l IH]; simpl; [contradiction|]. intros [E|H].
  - unfold has_id. now rewrite E, Z.eqb_refl.
  - destruct (has_id m x); [reflexivity | now apply IH].
Qed.

Lemma find_filter_other (l : list item) (m n : Z) :
  m <> n ->
  find (has_id m) (filter (fun it => negb (has_id n it)) l)
  = find (has_id m) l.
Proof.
  intros Hne. induction l as [|x l IH]; simpl; [reflexivity|].
  destruct (has_id n x) eqn:En; destruct (has_id m x) eqn:Em; simpl;
    rewrite ?Em; try reflexivity; try exact IH.
  unfold has_id in En, Em. lia.
Qed.

Lemma filter_drops_appended (l : list item) (created : item) :
  (forall n, In n (ids l) -> n < item_id created) ->
  filter (fun it => negb (has_id (item_id created) it)) (l ++ [created])%list
  = l.
Proof.
  induction l as [|x l IH]; simpl; intros Hb.
  - unfold has_id. now rewrite Z.eqb_refl.
  - unfold has_id at 1.
    destruct (Z.eqb_spec (item_id x) (item_id created)) as [E|E]; simpl.
    + specialize (Hb (item_id x)). lia.
    + f_equal. apply IH. intros n Hn. apply Hb. now right.
Qed.

Lemma filter_nodup_length (l : list item) (n : Z) :
  NoDup (ids l) -> In n (ids l) ->
  S (List.length (filter (fun it => negb (has_id n it)) l)) = List.length l.
Proof.
  induction l as [|x l IH]; simpl; intros Hnd Hin; [contradiction|].
  inversion Hnd as [|? ? Hx Hl]; subst. unfold has_id at 1.
  destruct (Z.eqb_spec (item_id x) n) as [E|E]; simpl.
  - f_equal. subst n. clear IH Hin Hnd Hl.
    induction l as [|y l IH]; simpl; [reflexivity|].
    unfold has_id at 1.
    destruct (Z.eqb_spec (item_id y) (item_id x)) as [F|F]; simpl.
    + exfalso. apply Hx. simpl. now left.
    + f_equal. apply IH. intros H. apply Hx. simpl. now right.
  - f_equal. apply IH; [assumption|]. destruct Hin; [contradiction|assumption].
Qed.

Lemma find_nodup_in (l : list item) (it : item) :
  NoDup (ids l) -> In it l -> find (has_id (item_id it)) l = Some it.
Proof.
  induction l as [|x l IH]; simpl; intros Hnd Hin; [contradiction|].
  inversion Hnd as [|? ? Hx Hl]; subst. unfold has_id at 1.
  destruct Hin as [->|Hin].
  - now rewrite Z.eqb_refl.
  - destruct (Z.eqb_spec (item_id x) (item_id it)) as [E|E].
    + exfalso. apply Hx. rewrite E. apply in_map, Hin.
    + now apply IH.
Qed.

(** *** Lists of ids in ascending order *)

Lemma ascending_app_last (xs : list Z) (m : Z) :
  StronglySorted Z.lt xs -> (forall n, In n xs -> n < m) ->
  StronglySorted Z.lt (xs ++ [m]).
Proof.
  induction 1 as [|x xs Hs IH Hx]; simpl; intros Hb.
  - repeat constructor.
  - constructor.
    + apply IH. intros n Hn. apply Hb. now right.
    + apply Forall_app. split; [exact Hx|].
      constructor; [apply Hb; now left | constructor].
Qed.

Lemma ascending_filter (f : Z -> bool) (xs : list Z) :
  StronglySorted Z.lt xs -> StronglySorted Z.lt (filter f xs).
Proof.
  induction 1 as [|x xs Hs IH Hx]; simpl; [constructor|].
  destruct (f x); [|exact IH]. constructor; [exact IH|].
  rewrite Forall_forall in *. intros y Hy. apply Hx.
  now apply filter_In in Hy.
Qed.

Lemma ascending_le_last (xs : list Z) (n : Z) :
  StronglySorted Z.lt xs -> In n xs -> n <= last xs 0.
Proof.
  intros Hs. revert n.
  induction Hs as [|x xs Hs IH Hx]; intros n Hin; [contradiction|].
  destruct xs as [|y ys].
  - destruct Hin as [<-|[]]. simpl. lia.
  - change (last (x :: y :: ys) 0) with (last (y :: ys) 0).
    destruct Hin as [<-|Hin]; [|now apply IH].
    rewrite Forall_forall in Hx.
    assert (x < y) by (apply Hx; now left).
    assert (y <= last (y :: ys) 0) by (apply IH; now left). lia.
Qed.

Lemma last_in (xs : list Z) : xs <> [] -> In (last xs 0) xs.
Proof.
  induction xs as [|x xs IH]; [congruence|]. intros _.
  destruct xs as [|y ys]; [now left|].
  right. apply IH. discriminate.
Qed.

(** In an ascending list the maximum scanned by [post] is the id of the
    last element. *)
Lemma max_id_is_last (first : item) (rest : list item) :
  StronglySorted Z.lt (ids (first :: rest)) ->
  max_id first rest = last (ids (first :: rest)) 0.
Proof.
  intros Hs.
  pose proof (max_id_in first rest) as Hin.
  pose proof (ascending_le_last _ _ Hs Hin) as H1.
  assert (Hne : ids (first :: rest) <> []) by discriminate.
  pose proof (max_id_bound first rest _ (last_in _ Hne)) as H2. lia.
Qed.

(** ** Further properties of the handlers *)

Section Service.

Variable payload : Type.
Variable messages : Type.
Variable load : payload -> messages + ItemSchema.

Let get := Item.get messages.
Let post := Item.post payload messages load.
Let put := Item.put payload messages load.
Let delete := Item.delete messages.
Let serve := handle payload messages load.
Let serve_all := run payload messages load.

(** What a request does to the list of ids: nothing, or it appends an id
    above all others (1 on an empty list, otherwise the successor of an id
    present), or it drops one id. *)
Lemma handle_ids (r : request payload) (l : list item) :
  ids (snd (serve r l)) = ids l \/
  (exists m,
      ids (snd (serve r l)) = (ids l ++ [m])%list /\
      (forall n, In n (ids l) -> n < m) /\
      (l = [] -> m = 1) /\
      (l <> [] -> In (m - 1) (ids l))) \/
  (exists n,
      ids (snd (serve r l)) = filter (fun i => negb (i =? n)) (ids l)).
Proof.
  destruct r as [|t|j|t j|t]; unfold serve, handle.
  - now left.
  - left. unfold Item.get. destruct t; [reflexivity|].
    destruct (lookup l _) as [e|[it|]]; reflexivity.
  - destruct (load j) as [errs|data] eqn:Hload.
    + left. unfold Item.post. now rewrite Hload.
    + right. left.
      destruct (post_valid payload messages load j data l Hload)
        as (created & Hpost & _ & _ & Hnil & Hin & Hb).
      exists (item_id created). rewrite Hpost. simpl snd.
      rewrite ids_app. auto.
  - left. apply put_keeps_ids.
  - destruct (PyInt.int t) as [n|] eqn:Hn.
    + rewrite (delete_parsed messages t n l Hn).
      destruct (find (has_id n) l); [|now left].
      right. right. exists n. apply ids_filter.
    + left. unfold Item.delete. destruct l as [|it rest]; [reflexivity|].
      now rewrite (lookup_unparsed it rest t Hn).
Qed.

Lemma run_ids_invariant (P : list Z -> Prop) :
  (forall l r, P (ids l) -> P (ids (snd (serve r l)))) ->
  forall rs l, P (ids l) -> P (ids (serve_all rs l)).
Proof.
  intros Hstep rs. induction rs as [|r rs IH]; simpl; intros l Hl.
  - exact Hl.
  - apply IH, Hstep, Hl.
Qed.

Lemma handle_keeps_ascending (l : list item) (r : request payload) :
  StronglySorted Z.lt (ids l) ->
  StronglySorted Z.lt (ids (snd (serve r l))).
Proof.
  intros Hl.
  destruct (handle_ids r l) as [E|[(m & E & Hb & _)|(n & E)]]; rewrite E.
  - exact Hl.
  - now apply ascending_app_last.
  - now apply ascending_filter.
Qed.

Lemma handle_keeps_positive (l : list item) (r : request payload) :
  Forall (fun n => 1 <= n) (ids l) ->
  Forall (fun n => 1 <= n) (ids (snd (serve r l))).
Proof.
  intros Hl.
  destruct (handle_ids r l) as [E|[(m & E & _ & Hnil & Hin)|(n & E)]];
    rewrite E.
  - exact Hl.
  - apply Forall_app. split; [exact Hl|]. constructor; [|constructor].
    destruct l as [|x l']; [rewrite Hnil; [lia|reflexivity]|].
    assert (Hm : In (m - 1) (ids (x :: l'))) by (apply Hin; discriminate).
    rewrite Forall_forall in Hl. apply Hl in Hm. lia.
  - rewrite Forall_forall in *. intros y Hy. apply Hl.
    now apply filter_In in Hy.
Qed.

Lemma run_ascending (rs : list (request payload)) :
  StronglySorted Z.lt (ids (serve_all rs items)).
Proof.
  apply (run_ids_invariant (StronglySorted Z.lt)).
  - intros l r. apply handle_keeps_ascending.
  - simpl. repeat constructor; lia.
Qed.

(** X1: after any sequence of requests on the seed records every id in the
    collection is at least 1. *)
Theorem ids_always_positive (rs : list (request payload)) :
  Forall (fun n => 1 <= n) (ids (serve_all rs items)).
Proof.
  apply (run_ids_invariant (Forall (fun n => 1 <= n))).
  - intros l r. apply handle_keeps_positive.
  - simpl. repeat constructor; lia.
Qed.

(** X2: after any sequence of requests on the seed records the collection
    lists its items in strictly ascending order of id. *)
Theorem ids_always_ascending (rs : list (request payload)) :
  StronglySorted Z.lt (ids (serve_all rs items)).
Proof.
  apply (run_ids_invariant (StronglySorted Z.lt)).
  - intros l r Hl.
    destruct (handle_ids r l) as [E|[(m & E & Hb & _)|(n & E)]]; rewrite E.
    + exact Hl.
    + now apply ascending_app_last.
    + now apply ascending_filter.
  - simpl. repeat constructor; lia.
Qed.

(** X3: in every non-empty state reached from the seed records, a create
    gives the new item the id of the last item of the collection plus
    one. *)
Theorem next_id_is_last_plus_one (rs : list (request payload))
        (json : payload) (data : ItemSchema) :
  load json = inr data ->
  serve_all rs items <> [] ->
  exists created,
    fst (post json (serve_all rs items))
    = Return (MessageItem "Item created" created) 201 /\
    item_id created = last (ids (serve_all rs items)) 0 + 1.
Proof.
  intros Hload Hne. pose proof (run_ascending rs) as Hs.
  unfold post, Item.post. rewrite Hload.
  destruct (serve_all rs items) as [|first rest]; [congruence|].
  eexists. split; [reflexivity|]. cbn [item_id].
  now rewrite (max_id_is_last first rest Hs).
Qed.

(** X4: a get-by-id whose token is an integer present in the collection
    answers 200 with the first item carrying that id, and leaves the
    collection as it was. *)
Theorem get_finds_first_match (token : string) (n : Z) (l : list item) :
  PyInt.int token = Some n ->
  In n (ids l) ->
  exists before it after,
    l = (before ++ it :: after)%list /\
    item_id it = n /\
    ~ In n (ids before) /\
    get (Some token) l = (Return (OneItem it) 200, l).
Proof.
  intros Hn Hin. unfold get. rewrite (get_parsed _ _ _ _ Hn).
  destruct (find (has_id n) l) as [it|] eqn:Hfind.
  - destruct (find_has_id_some l n it Hfind)
      as (before & after & Hl & Hid & Hnot).
    exists before, it, after. auto.
  - apply find_has_id_none in Hfind. contradiction.
Qed.

(** X5: the [ValueError] of [int(item_id)] escapes from get-by-id, from
    update (its body taken as decoded) and from delete exactly when the
    collection is not empty and the token is not an integer. *)
Theorem by_id_raises_iff (c : ascii) (s : string) (json : payload)
        (l : list item) :
  (fst (get (Some (String c s)) l) = Raise ValueError <->
   l <> [] /\ PyInt.int (String c s) = None) /\
  (fst (put (String c s) json l) = Raise ValueError <->
   l <> [] /\ PyInt.int (String c s) = None) /\
  (fst (delete (String c s) l) = Raise ValueError <->
   l <> [] /\ PyInt.int (String c s) = None).
Proof.
  destruct (PyInt.int (String c s)) as [n|] eqn:Hn.
  - unfold get, put, delete.
    rewrite (get_parsed _ _ _ _ Hn), (put_parsed _ _ _ _ _ _ _ Hn),
      (delete_parsed _ _ _ _ Hn).
    destruct (find (has_id n) l); [destruct (load json)|]; simpl;
      (split; [|split]);
      (split; [intros H; discriminate | intros [_ H]; discriminate]).
  - destruct l as [|it rest].
    + simpl. (split; [|split]);
        (split; [intros H; discriminate | intros [H _]; congruence]).
    + destruct (non_integer_token_raises payload messages load c s json
                  it rest Hn) as (Hg & Hp & Hd).
      unfold get, put, delete. rewrite Hg, Hp, Hd. simpl.
      (split; [|split]);
        (split; [intros _; split; [discriminate | reflexivity]
                | reflexivity]).
Qed.

(** X6: a request changes the collection only when it is a create answered
    201, or an update or a delete answered 200; every get, and every
    request answered 400 or 404 or ending in an exception, leaves it as it
    was. *)
Theorem store_changes_only_on_success (r : request payload)
        (l : list item) :
  snd (serve r l) = l \/
  (exists json, r = Post json /\ status_of (fst (serve r l)) = Some 201) \/
  (exists token json,
      r = Put token json /\ status_of (fst (serve r l)) = Some 200) \/
  (exists token,
      r = Delete token /\ status_of (fst (serve r l)) = Some 200).
Proof.
  destruct r as [|t|j|t j|t]; unfold serve, handle.
  - now left.
  - left. unfold Item.get. destruct t; [reflexivity|].
    destruct (lookup l _) as [e|[it|]]; reflexivity.
  - unfold Item.post. destruct (load j); [now left|].
    right. left. eauto.
  - unfold Item.put. destruct (lookup l t) as [e|[it|]]; try now left.
    destruct (load j); [now left|]. right. right. left. eauto.
  - unfold Item.delete. destruct (lookup l t) as [e|[it|]]; try now left.
    destruct (without l t); [now left|]. right. right. right. eauto.
Qed.

(** X7: every response a handler returns is described by the document of
    [swagger_json]: the status is listed under the request's path and
    method, and when the body carries a message it is the description the
    document gives for that status. *)
Theorem responses_are_documented (r : request payload) (l : list item)
        (b : body messages) (status : Z) :
  fst (serve r l) = Return b status ->
  exists text,
    documented (fst (operation_of r)) (snd (operation_of r))
      (PyInt.str status) = Some text /\
    forall m, message_of b = Some m -> m = text.
Proof.
  destruct r as [|t|j|t j|t]; unfold serve, handle; intros H.
  - inversion H; subst. eexists. split; [reflexivity|]. discriminate.
  - unfold Item.get in H. destruct t.
    + inversion H; subst. eexists. split; [reflexivity|]. discriminate.
    + destruct (lookup l _) as [e|[it|]]; inversion H; subst;
        eexists; (split; [reflexivity|]); simpl; congruence.
  - unfold Item.post in H. destruct (load j); inversion H; subst;
      eexists; (split; [reflexivity|]); simpl; congruence.
  - unfold Item.put in H. destruct (lookup l t) as [e|[it|]];
      [discriminate| |].
    + destruct (load j); inversion H; subst;
        eexists; (split; [reflexivity|]); simpl; congruence.
    + inversion H; subst. eexists. split; [reflexivity|]. simpl. congruence.
  - unfold Item.delete in H. destruct (lookup l t) as [e|[it|]];
      [discriminate| |].
    + destruct (without l t); inversion H; subst.
      eexists. split; [reflexivity|]. simpl. congruence.
    + inversion H; subst. eexists. split; [reflexivity|]. simpl. congruence.
Qed.

(** X8: after a successful update, a get-by-id with the same token answers
    200 with the item under its old id and with the name and price of the
    payload. *)
Theorem get_after_put (token : string) (n : Z) (json : payload)
        (data : ItemSchema) (l : list item) :
  PyInt.int token = Some n ->
  In n (ids l) ->
  load json = inr data ->
  get (Some token) (snd (put token json l))
  = (Return (OneItem (mkItem n (name data) (price data))) 200,
     snd (put token json l)).
Proof.
  intros Hn Hin Hload. unfold get, put.
  rewrite (get_parsed _ _ _ _ Hn), (put_parsed _ _ _ _ _ _ _ Hn).
  destruct (find (has_id n) l) as [it|] eqn:Hfind.
  - destruct (find_has_id_some l n it Hfind) as (_ & _ & _ & Hid & _).
    rewrite Hload. cbn [snd]. rewrite Hid, find_update_first_same, Hfind.
    simpl. now rewrite Hid.
  - apply find_has_id_none in Hfind. contradiction.
Qed.

(** X9: an update is idempotent: sending the same update again gives the
    same response and the same collection, whatever the token and the
    payload. *)
Theorem put_idempotent (token : string) (json : payload) (l : list item) :
  put token json (snd (put token json l)) = put token json l.
Proof.
  unfold put. destruct (PyInt.int token) as [n|] eqn:Hn.
  - rewrite (put_parsed _ _ _ _ _ json l Hn).
    destruct (find (has_id n) l) as [it|] eqn:Hfind.
    + destruct (find_has_id_some l n it Hfind) as (_ & _ & _ & Hid & _).
      destruct (load json) as [errs|data] eqn:Hload; cbn [snd];
        rewrite (put_parsed _ _ _ _ _ json _ Hn).
      * now rewrite Hfind, Hload.
      * rewrite Hid, find_update_first_same, Hfind, Hload. simpl.
        now rewrite Hid, update_first_twice.
    + cbn [snd]. rewrite (put_parsed _ _ _ _ _ json l Hn). now rewrite Hfind.
  - unfold Item.put. destruct l as [|it rest]; [reflexivity|].
    rewrite (lookup_unparsed it rest token Hn). cbn [snd].
    now rewrite (lookup_unparsed it rest token Hn).
Qed.

(** X10: after a successful delete the id is no longer in the collection:
    a get-by-id and a second delete with the same token are answered 404
    "Item not found", and the second delete changes nothing. *)
Theorem delete_twice_not_found (token : string) (n : Z) (l : list item) :
  PyInt.int token = Some n ->
  In n (ids l) ->
  fst (delete token l) = Return (Message "Item deleted") 200 /\
  ~ In n (ids (snd (delete token l))) /\
  get (Some token) (snd (delete token l))
  = (Return (Message "Item not found") 404, snd (delete token l)) /\
  delete token (snd (delete token l))
  = (Return (Message "Item not found") 404, snd (delete token l)).
Proof.
  intros Hn Hin. unfold delete, get.
  rewrite (delete_parsed _ _ _ _ Hn), (get_parsed _ _ _ _ Hn).
  destruct (find (has_id n) l) as [it|] eqn:Hfind.
  - cbn [fst snd]. rewrite (delete_parsed _ _ _ _ Hn).
    assert (Hgone : ~ In n (ids (filter (fun x => negb (has_id n x)) l))).
    { rewrite ids_filter, filter_In, Z.eqb_refl. intros [_ H]. discriminate. }
    split; [reflexivity|]. split; [exact Hgone|].
    apply find_has_id_none in Hgone. now rewrite Hgone.
  - apply find_has_id_none in Hfind. contradiction.
Qed.

(** X11: deleting the item a create has just made, by the numeral of the
    id the create returned, gives back the collection as it was before the
    create. *)
Theorem delete_after_post_restores (json : payload) (data : ItemSchema)
        (l : list item) :
  load json = inr data ->
  exists created,
    post json l
    = (Return (MessageItem "Item created" created) 201,
       (l ++ [created])%list) /\
    delete (PyInt.str (item_id created)) (l ++ [created])%list
    = (Return (Message "Item deleted") 200, l).
Proof.
  intros Hload.
  destruct (post_valid payload messages load json data l Hload)
    as (created & Hpost & _ & _ & _ & _ & Hb).
  exists created. split; [exact Hpost|]. unfold delete.
  rewrite (delete_parsed _ _ _ _ (int_str (item_id created))).
  rewrite (find_appended l created Hb).
  now rewrite (filter_drops_appended l created Hb).
Qed.

(** X12: when the ids of the collection are pairwise distinct, a successful
    delete removes exactly one item. *)
Theorem delete_removes_one_item (token : string) (n : Z) (l : list item) :
  NoDup (ids l) ->
  PyInt.int token = Some n ->
  In n (ids l) ->
  S (List.length (snd (delete token l))) = List.length l.
Proof.
  intros Hnd Hn Hin. unfold delete. rewrite (delete_parsed _ _ _ _ Hn).
  destruct (find (has_id n) l) as [it|] eqn:Hfind.
  - cbn [snd]. now apply filter_nodup_length.
  - apply find_has_id_none in Hfind. contradiction.
Qed.

(** X13: when the ids of the collection are pairwise distinct, a get-by-id
    with the numeral of the id of any item of the collection answers 200
    with that very item. *)
Theorem get_by_numeral_finds_item (it : item) (l : list item) :
  NoDup (ids l) ->
  In it l ->
  get (Some (PyInt.str (item_id it))) l = (Return (OneItem it) 200, l).
Proof.
  intros Hnd Hin. unfold get.
  rewrite (get_parsed _ _ _ _ (int_str (item_id it))).
  now rewrite (find_nodup_in l it Hnd Hin).
Qed.

(** X14: an update, whatever it answers, never adds, removes or reorders
    ids: the list of ids and the number of items are the same after it. *)
Theorem put_never_changes_ids (token : string) (json : payload)
        (l : list item) :
  ids (snd (put token json l)) = ids l /\
  List.length (snd (put token json l)) = List.length l.
Proof.
  split; [apply put_keeps_ids|].
  unfold put, Item.put.
  destruct (lookup l token) as [e|[it|]]; try reflexivity.
  destruct (load json); [reflexivity | apply length_update_first].
Qed.

(** X15: what a get-by-id answers for an id present in the collection is
    not affected by a create, nor by an update or a delete aimed at another
    id. *)
Theorem get_unaffected_by_other_requests (token other : string) (m n : Z)
        (json : payload) (l : list item) :
  PyInt.int token = Some m ->
  In m (ids l) ->
  PyInt.int other = Some n ->
  m <> n ->
  fst (get (Some token) (snd (post json l))) = fst (get (Some token) l) /\
  fst (get (Some token) (snd (put other json l)))
  = fst (get (Some token) l) /\
  fst (get (Some token) (snd (delete other l))) = fst (get (Some token) l).
Proof.
  intros Hm Hin Hn Hne. unfold get, post, put, delete.
  rewrite !(get_parsed _ _ _ _ Hm), (put_parsed _ _ _ _ _ _ _ Hn),
    (delete_parsed _ _ _ _ Hn).
  repeat split.
  - unfold Item.post. destruct (load json); cbn [snd]; [reflexivity|].
    rewrite (find_app_present l _ m Hin).
    destruct (find (has_id m) l); reflexivity.
  - destruct (find (has_id n) l) as [it|] eqn:Hfind; [|reflexivity].
    destruct (load json); cbn [snd]; [reflexivity|].
    destruct (find_has_id_some l n it Hfind) as (_ & _ & _ & Hid & _).
    rewrite Hid, (find_update_first_other l m n _ Hne).
    destruct (find (has_id m) l); reflexivity.
  - destruct (find (has_id n) l); cbn [snd]; [|reflexivity].
    rewrite (find_filter_other l m n Hne).
    destruct (find (has_id m) l); reflexivity.
Qed.

(** X16: two tokens that [int] reads as the same integer are
    interchangeable: get-by-id, update and delete answer the same and
    leave the same collection for both. *)
Theorem tokens_of_same_integer_agree (t1 t2 : string) (n : Z)
        (json : payload) (l : list item) :
  PyInt.int t1 = Some n ->
  PyInt.int t2 = Some n ->
  get (Some t1) l = get (Some t2) l /\
  put t1 json l = put t2 json l /\
  delete t1 l = delete t2 l.
Proof.
  intros H1 H2. unfold get, put, delete.
  now rewrite (get_parsed _ _ _ _ H1), (get_parsed _ _ _ _ H2),
    (put_parsed _ _ _ _ _ _ _ H1), (put_parsed _ _ _ _ _ _ _ H2),
    (delete_parsed _ _ _ _ H1), (delete_parsed _ _ _ _ H2).
Qed.

(** X17: a token that [int] reads as an integer carried by no item is
    answered 404 "Item not found" by get-by-id, update (whatever the body)
    and delete, and the collection is left as it was. *)
Theorem integer_token_without_item_is_404 (token : string) (n : Z)
        (json : payload) (l : list item) :
  PyInt.int token = Some n ->
  ~ In n (ids l) ->
  get (Some token) l = (Return (Message "Item not found") 404, l) /\
  put token json l = (Return (Message "Item not found") 404, l) /\
  delete token l = (Return (Message "Item not found") 404, l).
Proof.
  intros Hn Hnot. apply find_has_id_none in Hnot. unfold get, put, delete.
  rewrite (get_parsed _ _ _ _ Hn), (put_parsed _ _ _ _ _ _ _ Hn),
    (delete_parsed _ _ _ _ Hn), Hnot.
  repeat split.
Qed.

End Service.

(** ** The further properties on concrete requests *)

Lemma get_finds_first_match_witness :
  PyInt.int "2" = Some 2 /\
  In 2 (ids items) /\
  exists before it after,
    items = (before ++ it :: after)%list /\
    item_id it = 2 /\
    ~ In 2 (ids before) /\
    Item.get Scenario.messages (Some "2") items
    = (Return (OneItem it) 200, items).
Proof.
  assert (Hin : In 2 (ids items)) by (simpl; auto).
  split; [reflexivity|]. split; [exact Hin|].
  apply (get_finds_first_match Scenario.messages "2" 2 items);
    [reflexivity | exact Hin].
Defined.

Lemma responses_are_documented_witness :
  fst (handle Scenario.payload Scenario.messages Scenario.load
         (Put "99" Scenario.missing_name) items)
  = Return (Message "Item not found") 404 /\
  exists text,
    documented
      (fst (operation_of (Put "99" Scenario.missing_name)))
      (snd (operation_of (Put "99" Scenario.missing_name)))
      (PyInt.str 404) = Some text /\
    forall m,
      message_of (Message (messages := Scenario.messages) "Item not found")
      = Some m -> m = text.
Proof.
  split; [reflexivity|].
  apply (responses_are_documented Scenario.payload Scenario.messages
           Scenario.load (Put "99" Scenario.missing_name) items
           (Message "Item not found") 404).
  reflexivity.
Defined.

Lemma next_id_is_last_plus_one_witness :
  Scenario.load (Scenario.valid "Monitor" (Float 300))
  = inr (mkData "Monitor" (Float 300)) /\
  run Scenario.payload Scenario.messages Scenario.load
    [Delete "2"] items <> [] /\
  exists created,
    fst (Item.post Scenario.payload Scenario.messages Scenario.load
           (Scenario.valid "Monitor" (Float 300))
           (run Scenario.payload Scenario.messages Scenario.load
              [Delete "2"] items))
    = Return (MessageItem "Item created" created) 201 /\
    item_id created
    = last (ids (run Scenario.payload Scenario.messages Scenario.load
                   [Delete "2"] items)) 0 + 1.
Proof.
  assert (Hne : run Scenario.payload Scenario.messages Scenario.load
                  [Delete "2"] items <> []) by (simpl; discriminate).
  split; [reflexivity|]. split; [exact Hne|].
  apply (next_id_is_last_plus_one Scenario.payload Scenario.messages
           Scenario.load [Delete "2"]
           (Scenario.valid "Monitor" (Float 300))
           (mkData "Monitor" (Float 300)));
    [reflexivity | exact Hne].
Defined.

Lemma get_after_put_witness :
  PyInt.int "1" = Some 1 /\
  In 1 (ids items) /\
  Scenario.load (Scenario.valid "Gaming Laptop" (Float 2000))
  = inr (mkData "Gaming Laptop" (Float 2000)) /\
  Item.get Scenario.messages (Some "1")
    (snd (Item.put Scenario.payload Scenario.messages Scenario.load
            "1" (Scenario.valid "Gaming Laptop" (Float 2000)) items))
  = (Return (OneItem (mkItem 1 "Gaming Laptop" (Float 2000))) 200,
     snd (Item.put Scenario.payload Scenario.messages Scenario.load
            "1" (Scenario.valid "Gaming Laptop" (Float 2000)) items)).
Proof.
  assert (Hin : In 1 (ids items)) by (simpl; auto).
  split; [reflexivity|]. split; [exact Hin|]. split; [reflexivity|].
  apply (get_after_put Scenario.payload Scenario.messages Scenario.load
           "1" 1 (Scenario.valid "Gaming Laptop" (Float 2000))
           (mkData "Gaming Laptop" (Float 2000)) items);
    [reflexivity | exact Hin | reflexivity].
Defined.

Lemma delete_twice_not_found_witness :
  PyInt.int "3" = Some 3 /\
  In 3 (ids items) /\
  fst (Item.delete Scenario.messages "3" items)
  = Return (Message "Item deleted") 200 /\
  ~ In 3 (ids (snd (Item.delete Scenario.messages "3" items))) /\
  Item.get Scenario.messages (Some "3")
    (snd (Item.delete Scenario.messages "3" items))
  = (Return (Message "Item not found") 404,
     snd (Item.delete Scenario.messages "3" items)) /\
  Item.delete Scenario.messages "3"
    (snd (Item.delete Scenario.messages "3" items))
  = (Return (Message "Item not found") 404,
     snd (Item.delete Scenario.messages "3" items)).
Proof.
  assert (Hin : In 3 (ids items)) by (simpl; auto).
  split; [reflexivity|]. split; [exact Hin|].
  apply (delete_twice_not_found Scenario.messages "3" 3 items);
    [reflexivity | exact Hin].
Defined.

Lemma delete_after_post_restores_witness :
  Scenario.load (Scenario.valid "Monitor" (Float 300))
  = inr (mkData "Monitor" (Float 300)) /\
  exists created,
    Item.post Scenario.payload Scenario.messages Scenario.load
      (Scenario.valid "Monitor" (Float 300)) items
    = (Return (MessageItem "Item created" created) 201,
       (items ++ [created])%list) /\
    Item.delete Scenario.messages (PyInt.str (item_id created))
      (items ++ [created])%list
    = (Return (Message "Item deleted") 200, items).
Proof.
  split; [reflexivity|].
  apply (delete_after_post_restores Scenario.payload Scenario.messages
           Scenario.load (Scenario.valid "Monitor" (Float 300))
           (mkData "Monitor" (Float 300)) items).
  reflexivity.
Defined.

Lemma delete_removes_one_item_witness :
  NoDup (ids items) /\
  PyInt.int "2" = Some 2 /\
  In 2 (ids items) /\
  S (List.length (snd (Item.delete Scenario.messages "2" items)))
  = List.length items.
Proof.
  assert (Hnd : NoDup (ids items))
    by (simpl; repeat constructor; simpl; intuition lia).
  assert (Hin : In 2 (ids items)) by (simpl; auto).
  split; [exact Hnd|]. split; [reflexivity|]. split; [exact Hin|].
  apply (delete_removes_one_item Scenario.messages "2" 2 items);
    [exact Hnd | reflexivity | exact Hin].
Defined.

Lemma get_by_numeral_finds_item_witness :
  NoDup (ids items) /\
  In (mkItem 2 "Phone" (Int 800)) items /\
  Item.get Scenario.messages
    (Some (PyInt.str (item_id (mkItem 2 "Phone" (Int 800))))) items
  = (Return (OneItem (mkItem 2 "Phone" (Int 800))) 200, items).
Proof.
  assert (Hnd : NoDup (ids items))
    by (simpl; repeat constructor; simpl; intuition lia).
  assert (Hin : In (mkItem 2 "Phone" (Int 800)) items) by (simpl; auto).
  split; [exact Hnd|]. split; [exact Hin|].
  apply (get_by_numeral_finds_item Scenario.messages
           (mkItem 2 "Phone" (Int 800)) items); [exact Hnd | exact Hin].
Defined.

Lemma get_unaffected_by_other_requests_witness :
  PyInt.int "1" = Some 1 /\
  In 1 (ids items) /\
  PyInt.int "3" = Some 3 /\
  1 <> 3 /\
  fst (Item.get Scenario.messages (Some "1")
         (snd (Item.post Scenario.payload Scenario.messages Scenario.load
                 (Scenario.valid "Monitor" (Float 300)) items)))
  = fst (Item.get Scenario.messages (Some "1") items) /\
  fst (Item.get Scenario.messages (Some "1")
         (snd (Item.put Scenario.payload Scenario.messages Scenario.load
                 "3" (Scenario.valid "Monitor" (Float 300)) items)))
  = fst (Item.get Scenario.messages (Some "1") items) /\
  fst (Item.get Scenario.messages (Some "1")
         (snd (Item.delete Scenario.messages "3" items)))
  = fst (Item.get Scenario.messages (Some "1") items).
Proof.
  assert (Hin : In 1 (ids items)) by (simpl; auto).
  assert (Hne : 1 <> 3) by lia.
  split; [reflexivity|]. split; [exact Hin|]. split; [reflexivity|].
  split; [exact Hne|].
  apply (get_unaffected_by_other_requests Scenario.payload
           Scenario.messages Scenario.load "1" "3" 1 3
           (Scenario.valid "Monitor" (Float 300)) items);
    [reflexivity | exact Hin | reflexivity | exact Hne].
Defined.

Lemma tokens_of_same_integer_agree_witness :
  PyInt.int "1" = Some 1 /\
  PyInt.int " +01 " = Some 1 /\
  Item.get Scenario.messages (Some "1") items
  = Item.get Scenario.messages (Some " +01 ") items /\
  Item.put Scenario.payload Scenario.messages Scenario.load
    "1" (Scenario.valid "Gaming Laptop" (Float 2000)) items
  = Item.put Scenario.payload Scenario.messages Scenario.load
      " +01 " (Scenario.valid "Gaming Laptop" (Float 2000)) items /\
  Item.delete Scenario.messages "1" items
  = Item.delete Scenario.messages " +01 " items.
Proof.
  split; [reflexivity|]. split; [reflexivity|].
  apply (tokens_of_same_integer_agree Scenario.payload Scenario.messages
           Scenario.load "1" " +01 " 1
           (Scenario.valid "Gaming Laptop" (Float 2000)) items);
    reflexivity.
Defined.

Lemma integer_token_without_item_is_404_witness :
  PyInt.int "-7" = Some (-7) /\
  ~ In (-7) (ids items) /\
  Item.get Scenario.messages (Some "-7") items
  = (Return (Message "Item not found") 404, items) /\
  Item.put Scenario.payload Scenario.messages Scenario.load
    "-7" (Scenario.valid "Monitor" (Float 300)) items
  = (Return (Message "Item not found") 404, items) /\
  Item.delete Scenario.messages "-7" items
  = (Return (Message "Item not found") 404, items).
Proof.
  assert (Hnot : ~ In (-7) (ids items)) by (simpl; intuition lia).
  split; [reflexivity|]. split; [exact Hnot|].
  apply (integer_token_without_item_is_404 Scenario.payload
           Scenario.messages Scenario.load "-7" (-7)
           (Scenario.valid "Monitor" (Float 300)) items);
    [reflexivity | exact Hnot].
Defined.
